(** * backend/main.py: the API-key validation endpoint

    A shallow embedding of [backend/main.py].  The module has one request
    model, [APIkeyValidationRequest], and one path operation,
    [validate_api_key], which builds an OpenAI client from the posted key,
    issues one probe request and maps the outcome to a response.

    The Python of the handler is embedded in a small monad [py] of programs
    that return or raise and that talk to the outside through calls whose
    answers the environment chooses.  The two libraries the module imports
    (openai, fastapi/pydantic) are not part of the repository: the first is a
    parameter of the development (an arbitrary answer to each call), the
    second is modelled where a statement is about it. *)

From stdpp Require Import base strings gmap list pretty.

Set Warnings "-register-all".

Open Scope Z_scope.

(** ** Values *)

(** JSON values, as Python has them after [json.loads]: an object is a dict,
    so a finite map from strings.  Numbers are kept as integers; the module
    reads none. *)
Inductive json : Type :=
| JNull
| JBool (b : bool)
| JNum (n : Z)
| JStr (s : string)
| JArr (l : list json)
| JObj (m : gmap string json).

(** ** Exceptions *)

(** The exception classes and their subclass relation.  [main.py] names
    three of them in its [except] clauses; the classes come from Python and
    from the openai package, so they are an interface here.  The three base
    facts are those of the class statements of the two libraries:
    [class OpenAIError(Exception)] and [AuthenticationError] below
    [OpenAIError]. *)
Class Exceptions : Type := {
  cls : Type;
  issubclass : cls → cls → bool;
  BaseException : cls;
  Exception : cls;
  OpenAIError : cls;
  AuthenticationError : cls;
  issubclass_refl c : issubclass c c = true;
  issubclass_trans c d e :
    issubclass c d = true → issubclass d e = true → issubclass c e = true;
  Exception_base : issubclass Exception BaseException = true;
  OpenAIError_base : issubclass OpenAIError Exception = true;
  AuthenticationError_base : issubclass AuthenticationError OpenAIError = true;
}.

Section Python.
Context `{Exceptions}.

(** An exception object: either the [HTTPException] the handler raises,
    with its two attributes, or an object of some other class together with
    what [str] returns on it. *)
Inductive exn : Type :=
| HTTPException (status_code : Z) (detail : string)
| Exc (c : cls) (msg : string).

(** [fastapi.HTTPException] derives from Starlette's, which derives from
    [Exception]. *)
Definition isinstance (e : exn) (c : cls) : bool :=
  match e with
  | HTTPException _ _ => issubclass Exception c
  | Exc c' _ => issubclass c' c
  end.

(** [str(e)].  Starlette prints an [HTTPException] as its status code, a
    colon and its detail. *)
Definition str (e : exn) : string :=
  match e with
  | HTTPException code detail => pretty code +:+ ": " +:+ detail
  | Exc _ msg => msg
  end.

(** The outcome of evaluating a Python expression or block. *)
Inductive pyres (A : Type) : Type :=
| Return (a : A)
| Raised (e : exn).
Global Arguments Return {A} a.
Global Arguments Raised {A} e.

(** ** The openai client *)

(** [openai.OpenAI(api_key=...)]: the client object keeps the key it was
    built with. *)
Record OpenAI : Type := { api_key : string }.

(** What [responses.create] returns; the handler binds it to [response] and
    never reads it. *)
Record Response : Type := { output_text : string }.

(** The calls that leave the module.  The environment answers each one;
    [X] is the type of the answer.  [GlobalLoad] and [GlobalStore] are the
    accesses to the module's own global objects. *)
Inductive call : Type → Type :=
| OpenAI_init (key : string) : call (pyres ())
| Responses_create (self : OpenAI) (model input : string) : call (pyres Response)
| GlobalLoad (name : string) : call (option json)
| GlobalStore (name : string) (v : json) : call ().

(** ** Programs *)

(** A Python block: it is done, with a value or an exception; or it makes
    a plain call and goes on with the answer, the calling thread waiting
    for it; or it [await]s a call: the coroutine is suspended until the
    answer is there. *)
Inductive py (A : Type) : Type :=
| Done (r : pyres A)
| Call {X : Type} (c : call X) (k : X → py A)
| Await {X : Type} (c : call X) (k : X → py A).
Global Arguments Done {A} r.
Global Arguments Call {A X} c k.
Global Arguments Await {A X} c k.

Definition raise {A} (e : exn) : py A := Done (Raised e).

Fixpoint py_bind {A B} (f : A → py B) (p : py A) : py B :=
  match p with
  | Done (Return a) => f a
  | Done (Raised e) => Done (Raised e)
  | Call c k => Call c (λ x, py_bind f (k x))
  | Await c k => Await c (λ x, py_bind f (k x))
  end.

Global Instance py_ret : MRet py := λ A a, Done (Return a).
Global Instance py_mbind : MBind py := λ A B f p, py_bind f p.

(** [try: body except c1: h1 except c2: h2 ...].  The clauses are tried in
    the order they are written and the first whose class the exception is
    an instance of runs; with none the exception goes on.  An exception
    raised by a clause is not offered to the clauses after it. *)
Definition except_clause (A : Type) : Type := cls * (exn → py A).

Fixpoint dispatch {A} (e : exn) (clauses : list (except_clause A)) : py A :=
  match clauses with
  | [] => Done (Raised e)
  | (c, h) :: clauses' => if isinstance e c then h e else dispatch e clauses'
  end.

Fixpoint try_except {A} (body : py A) (clauses : list (except_clause A)) : py A :=
  match body with
  | Done (Return a) => Done (Return a)
  | Done (Raised e) => dispatch e clauses
  | Call c k => Call c (λ x, try_except (k x) clauses)
  | Await c k => Await c (λ x, try_except (k x) clauses)
  end.

(** The two library calls as the handler writes them. *)
Definition openai_OpenAI (key : string) : py OpenAI :=
  Call (OpenAI_init key) (λ r,
    match r with
    | Return _ => Done (Return {| api_key := key |})
    | Raised e => Done (Raised e)
    end).

Definition responses_create (self : OpenAI) (model input : string) : py Response :=
  Call (Responses_create self model input) Done.

(** ** main.py *)

(** [status.HTTP_401_UNAUTHORIZED] and the like. *)
Definition HTTP_200_OK : Z := 200.
Definition HTTP_401_UNAUTHORIZED : Z := 401.
Definition HTTP_422_UNPROCESSABLE_ENTITY : Z := 422.
Definition HTTP_500_INTERNAL_SERVER_ERROR : Z := 500.
Definition HTTP_502_BAD_GATEWAY : Z := 502.

(** [class APIkeyValidationRequest(BaseModel)]. *)
Record APIkeyValidationRequest : Type := { openai_api_key : string }.

(** The three [except] clauses of the handler, in the order of the file. *)
Definition validate_api_key_clauses : list (except_clause json) :=
  [ (AuthenticationError, λ _,
       raise (HTTPException HTTP_401_UNAUTHORIZED "Invalid API key"));
    (OpenAIError, λ e,
       raise (HTTPException HTTP_502_BAD_GATEWAY ("OpenAI error: " +:+ str e)));
    (Exception, λ e,
       raise (HTTPException HTTP_500_INTERNAL_SERVER_ERROR "Internal server error")) ].

(** [async def validate_api_key(req)].  The client is built before the
    [try]; the body of the [try] is the probe and the [return]. *)
Definition validate_api_key (req : APIkeyValidationRequest) : py json :=
  ai_api ← openai_OpenAI (openai_api_key req);
  try_except
    (response ← responses_create ai_api "gpt-4o-mini" "hello";
     mret (JObj {[ "valid" := JBool true ]}))
    validate_api_key_clauses.

(** The probe: the one call of the [try] block, on the client built from
    the request's key. *)
Definition probe (req : APIkeyValidationRequest) : call (pyres Response) :=
  Responses_create {| api_key := openai_api_key req |} "gpt-4o-mini" "hello".

(** The handler as the spec's concurrency section words it, for comparison
    with [validate_api_key] only: the call to the provider suspends the
    handling of the current request, by asynchronous I/O.  It is the handler
    with the asynchronous client of the same package, whose
    [responses.create] is awaited.  It is not in [main.py]. *)
Definition spec_responses_create (self : OpenAI) (model input : string) : py Response :=
  Await (Responses_create self model input) Done.

Definition spec_validate_api_key (req : APIkeyValidationRequest) : py json :=
  ai_api ← openai_OpenAI (openai_api_key req);
  try_except
    (response ← spec_responses_create ai_api "gpt-4o-mini" "hello";
     mret (JObj {[ "valid" := JBool true ]}))
    validate_api_key_clauses.

(** ** The framework around the handler *)

(** What pydantic can hold against a body for this model: the field is
    not there, the field is not a string, the body is not an object. *)
Inductive validation_error : Type :=
| Missing (field : string)
| String_type (field : string)
| Model_type.

(** Modelled from the spec: the validation of the request body against
    [APIkeyValidationRequest], which FastAPI and pydantic do before the
    handler and which is not in the repository; [main.py] has only the
    declaration [class APIkeyValidationRequest(BaseModel): openai_api_key: str].
    The spec gives the body as [{"openai_api_key": <string>}], field
    required, string type, no length or format constraint.  The class sets
    no [model_config], so keys the model does not declare are left aside,
    which is pydantic's default. *)
Definition model_validate (request_body : json)
    : validation_error + APIkeyValidationRequest :=
  match request_body with
  | JObj fields =>
      match fields !! "openai_api_key" with
      | None => inl (Missing "openai_api_key")
      | Some (JStr key) => inr {| openai_api_key := key |}
      | Some _ => inl (String_type "openai_api_key")
      end
  | _ => inl Model_type
  end.

(** An HTTP response: the status code and the content, which is JSON or,
    for a rejected request, the list of validation errors. *)
Inductive content : Type :=
| JSONContent (j : json)
| ValidationErrors (errors : list validation_error).

Record HTTPResponse : Type := {
  status : Z;
  body : content;
}.

(** Modelled from the spec: the rendering of the handler's outcome.  A
    returned value is sent with 200 (the decorator gives no [status_code]);
    an [HTTPException] becomes a response with its status code and the body
    [{"detail": detail}]; any other exception is not turned into a response
    here and goes on to the server. *)
Definition respond (r : pyres json) : pyres HTTPResponse :=
  match r with
  | Return j => Return {| status := HTTP_200_OK; body := JSONContent j |}
  | Raised (HTTPException code detail) =>
      Return {| status := code;
                body := JSONContent (JObj {[ "detail" := JStr detail ]}) |}
  | Raised e => Raised e
  end.

Fixpoint render (p : py json) : py HTTPResponse :=
  match p with
  | Done r => Done (respond r)
  | Call c k => Call c (λ x, render (k x))
  | Await c k => Await c (λ x, render (k x))
  end.

(** Modelled from the spec: the route [@app.post("/api/validate_api_key")],
    whose dispatch is FastAPI's and not in the repository.  A body that does
    not pass validation is answered with 422 and the handler is not called;
    otherwise the handler runs on the validated model and its outcome is
    rendered. *)
Definition post_api_validate_api_key (request_body : json) : py HTTPResponse :=
  match model_validate request_body with
  | inl error =>
      mret {| status := HTTP_422_UNPROCESSABLE_ENTITY;
              body := ValidationErrors [error] |}
  | inr req => render (validate_api_key req)
  end.

(** ** Running a program *)

(** The outside world, as far as the handler meets it: how the openai
    package answers the two calls.  [W] is whatever state lies behind the
    answers (the provider's accounts and quotas, the network, the process
    environment); an answer may depend on it and change it. *)
Record Provider (W : Type) : Type := {
  on_init : string → W → pyres () * W;
  on_create : OpenAI → string → string → W → pyres Response * W;
}.
Global Arguments on_init {W} _ _ _.
Global Arguments on_create {W} _ _ _ _ _.

(** The state a request runs in: the world outside and the module's own
    global objects. *)
Record state (W : Type) : Type := {
  outside : W;
  globals : gmap string json;
}.
Global Arguments outside {W} _.
Global Arguments globals {W} _.

(** What an observer sees of a call: that it was started and that it
    returned. *)
Inductive event : Type :=
| Started {X : Type} (c : call X)
| Returned {X : Type} (c : call X).

(** The calls that go out to the provider: those of [responses.create].
    Building the client sends nothing.  What the client library does within
    one call of [responses.create] is behind the call. *)
Definition is_outbound {X} (c : call X) : bool :=
  match c with
  | Responses_create _ _ _ => true
  | _ => false
  end.

Definition starts_outbound (ev : event) : bool :=
  match ev with
  | Started c => is_outbound c
  | Returned _ => false
  end.

Definition outbound_calls (evs : list event) : nat :=
  length (filter (λ ev, starts_outbound ev = true) evs).

(** The three parts of what a run gives. *)
Definition result {A B C : Type} (x : A * B * C) : A := x.1.1.
Definition final {A B C : Type} (x : A * B * C) : B := x.1.2.
Definition trace {A B C : Type} (x : A * B * C) : C := x.2.

Section Run.
Context {W : Type} (P : Provider W).

Definition answer {X} (c : call X) (σ : state W) : X * state W :=
  match c in call X return X * state W with
  | OpenAI_init key =>
      let (r, w) := on_init P key (outside σ) in
      (r, {| outside := w; globals := globals σ |})
  | Responses_create self model input =>
      let (r, w) := on_create P self model input (outside σ) in
      (r, {| outside := w; globals := globals σ |})
  | GlobalLoad name => (globals σ !! name, σ)
  | GlobalStore name v =>
      ((), {| outside := outside σ; globals := <[name := v]> (globals σ) |})
  end.

(** A request on its own, run to its end. *)
Fixpoint run {A} (p : py A) (σ : state W) : pyres A * state W * list event :=
  match p with
  | Done r => (r, σ, [])
  | Call c k | Await c k =>
      let (x, σ1) := answer c σ in
      let '(r, σ2, evs) := run (k x) σ1 in
      (r, σ2, Started c :: Returned c :: evs)
  end.

(** *** The event loop *)

(** A coroutine the loop holds: not yet at its end, waiting for the answer
    to a call it awaits, or finished. *)
Inductive task (A : Type) : Type :=
| Runnable (p : py A)
| Suspended {X : Type} (c : call X) (k : X → py A)
| Finished (r : pyres A).
Global Arguments Runnable {A} p.
Global Arguments Suspended {A X} c k.
Global Arguments Finished {A} r.

(** The loop's thread runs a coroutine up to its next [await] or to its
    end.  A plain call is made on that thread, which comes back with the
    answer. *)
Fixpoint advance {A} (p : py A) (σ : state W) : task A * state W * list event :=
  match p with
  | Done r => (Finished r, σ, [])
  | Call c k =>
      let (x, σ1) := answer c σ in
      let '(t, σ2, evs) := advance (k x) σ1 in
      (t, σ2, Started c :: Returned c :: evs)
  | Await c k => (Suspended c k, σ, [Started c])
  end.

Definition resume {A} (t : task A) (σ : state W) : task A * state W * list event :=
  match t with
  | Runnable p => advance p σ
  | Suspended c k =>
      let (x, σ1) := answer c σ in
      let '(t', σ2, evs) := advance (k x) σ1 in
      (t', σ2, Returned c :: evs)
  | Finished r => (Finished r, σ, [])
  end.

(** The loop of the server, on which FastAPI runs the path operations
    declared [async def], one task for each request.  The loop has one
    thread: it resumes a task and gets the thread back when the task
    suspends or ends.  A schedule names, turn after turn, the task that is
    resumed; the trace tags each event with its task. *)
Fixpoint event_loop {A} (schedule : list nat) (tasks : list (task A)) (σ : state W)
    : list (task A) * state W * list (nat * event) :=
  match schedule with
  | [] => (tasks, σ, [])
  | i :: schedule' =>
      match tasks !! i with
      | None => event_loop schedule' tasks σ
      | Some t =>
          let '(t', σ1, evs) := resume t σ in
          let '(tasks', σ2, tr) := event_loop schedule' (<[i := t']> tasks) σ1 in
          (tasks', σ2, ((λ ev, (i, ev)) <$> evs) ++ tr)
      end
  end.

End Run.

(** [overlap flying tr]: in the trace some task does something while the
    outbound call of another task is in flight.  [flying] lists the tasks
    whose outbound call has started and not returned. *)
Definition others_flying (i : nat) (flying : list nat) : bool :=
  bool_decide (Exists (λ j, j ≠ i) flying).

Definition update_flying (i : nat) (ev : event) (flying : list nat) : list nat :=
  match ev with
  | Started c => if is_outbound c then i :: flying else flying
  | Returned c => if is_outbound c then remove Nat.eq_dec i flying else flying
  end.

Fixpoint overlap (flying : list nat) (tr : list (nat * event)) : bool :=
  match tr with
  | [] => false
  | (i, ev) :: tr' =>
      others_flying i flying || overlap (update_flying i ev flying) tr'
  end.

(** A program without [await]. *)
Fixpoint await_free {A} (p : py A) : Prop :=
  match p with
  | Done _ => True
  | Call _ k => ∀ x, await_free (k x)
  | Await _ _ => False
  end.

(** Calls that each returned before the next event. *)
Inductive returned_calls : list event → Prop :=
| returned_nil : returned_calls []
| returned_cons {X} (c : call X) evs :
    returned_calls evs → returned_calls (Started c :: Returned c :: evs).

(** A task that never waits for the loop: at its end, or on its way there
    without an [await]. *)
Definition never_suspends {A} (t : task A) : Prop :=
  match t with
  | Runnable p => await_free p
  | Suspended _ _ => False
  | Finished _ => True
  end.

End Python.

(** ** A concrete instance *)

(** Some of the classes of Python and of the openai package, with the base
    each class statement names. *)
Module Cls.
Inductive t : Type :=
| BaseException | KeyboardInterrupt | Exception | ValueError
| OpenAIError | APIError | APIConnectionError | APITimeoutError
| APIStatusError | AuthenticationError | RateLimitError.

Definition base (c : t) : option t :=
  match c with
  | BaseException => None
  | KeyboardInterrupt => Some BaseException
  | Exception => Some BaseException
  | ValueError => Some Exception
  | OpenAIError => Some Exception
  | APIError => Some OpenAIError
  | APIConnectionError => Some APIError
  | APITimeoutError => Some APIConnectionError
  | APIStatusError => Some APIError
  | AuthenticationError => Some APIStatusError
  | RateLimitError => Some APIStatusError
  end.

Definition eqb (c d : t) : bool :=
  match c, d with
  | BaseException, BaseException | KeyboardInterrupt, KeyboardInterrupt
  | Exception, Exception | ValueError, ValueError
  | OpenAIError, OpenAIError | APIError, APIError
  | APIConnectionError, APIConnectionError | APITimeoutError, APITimeoutError
  | APIStatusError, APIStatusError | AuthenticationError, AuthenticationError
  | RateLimitError, RateLimitError => true
  | _, _ => false
  end.

(** [d] is [c] or is reached from [c] along the bases. *)
Fixpoint climb (fuel : nat) (c d : t) : bool :=
  eqb c d ||
  match fuel, base c with
  | S fuel', Some b => climb fuel' b d
  | _, _ => false
  end.

Definition issubclass : t → t → bool := climb 5.
End Cls.

Definition openai_python : Exceptions := {|
  cls := Cls.t;
  issubclass := Cls.issubclass;
  BaseException := Cls.BaseException;
  Exception := Cls.Exception;
  OpenAIError := Cls.OpenAIError;
  AuthenticationError := Cls.AuthenticationError;
  issubclass_refl := ltac:(by intros []);
  issubclass_trans := ltac:(by intros [] [] []);
  Exception_base := eq_refl;
  OpenAIError_base := eq_refl;
  AuthenticationError_base := eq_refl;
|}.

(** Requests and exceptions to try the handler on. *)
Definition good_request : APIkeyValidationRequest := {| openai_api_key := "sk-good" |}.
Definition revoked_request : APIkeyValidationRequest := {| openai_api_key := "sk-revoked" |}.
Definition quota_request : APIkeyValidationRequest := {| openai_api_key := "sk-quota" |}.
Definition odd_request : APIkeyValidationRequest := {| openai_api_key := "sk-odd" |}.

Definition greeting : Response := {| output_text := "Hello! How can I help?" |}.
Definition key_refused : exn :=
  @Exc openai_python Cls.AuthenticationError "Incorrect API key provided".
Definition quota_exceeded : exn :=
  @Exc openai_python Cls.RateLimitError "You exceeded your current quota".
Definition odd_payload : exn :=
  @Exc openai_python Cls.ValueError "unexpected payload".
Definition bad_proxy : exn :=
  @Exc openai_python Cls.ValueError "bad proxy settings".

(** A provider to run the handler against: it knows one good key, one key
    whose account is out of quota and one key on which the client library
    itself fails; every other key is refused. *)
Definition sample_provider : Provider () := {|
  on_init := λ key w, (Return (), w);
  on_create := λ self model input w,
    if String.eqb (api_key self) "sk-good" then
      (Return greeting, w)
    else if String.eqb (api_key self) "sk-quota" then
      (Raised quota_exceeded, w)
    else if String.eqb (api_key self) "sk-odd" then
      (Raised odd_payload, w)
    else
      (Raised key_refused, w)
|}.

(** A provider under which the client cannot be built. *)
Definition no_client_provider : Provider () := {|
  on_init := λ key w, (Raised bad_proxy, w);
  on_create := on_create sample_provider;
|}.

Definition fresh : state () := {| outside := (); globals := ∅ |}.

(** A provider whose probe is cut short by an interrupt, which is a
    [BaseException] and no [Exception]. *)
Definition interrupt : exn := @Exc openai_python Cls.KeyboardInterrupt "".

Definition interrupted_provider : Provider () := {|
  on_init := λ key w, (Return (), w);
  on_create := λ self model input w, (Raised interrupt, w);
|}.

(** ** The client as line 23 builds it *)

(** [openai.OpenAI(api_key=...)] with no other argument takes the defaults
    of the package, among them [max_retries = 2]: within one call of
    [responses.create] a request that gets no reply in time or is answered
    with 429 is sent again, up to twice.  The package is not in the
    repository; this provider follows its defaults and keeps count of what
    goes over the network. *)
Inductive reply : Type :=
| Completed (r : Response)
| Unauthorized (msg : string)
| TooManyRequests (msg : string)
| NoReply.

(** The network as the client sees it: how many requests were sent, and
    what the server will reply to the next ones. *)
Record wire : Type := {
  sent : nat;
  replies : list reply;
}.

Definition DEFAULT_MAX_RETRIES : nat := 2.

Definition send (w : wire) : reply * wire :=
  match replies w with
  | [] => (NoReply, {| sent := S (sent w); replies := [] |})
  | r :: rs => (r, {| sent := S (sent w); replies := rs |})
  end.

Definition should_retry (r : reply) : bool :=
  match r with
  | TooManyRequests _ | NoReply => true
  | Completed _ | Unauthorized _ => false
  end.

Definition outcome_of (r : reply) : pyres Response :=
  match r with
  | Completed x => Return x
  | Unauthorized msg => Raised (@Exc openai_python Cls.AuthenticationError msg)
  | TooManyRequests msg => Raised (@Exc openai_python Cls.RateLimitError msg)
  | NoReply => Raised (@Exc openai_python Cls.APITimeoutError "Request timed out.")
  end.

Fixpoint request (retries_left : nat) (w : wire) : pyres Response * wire :=
  let (r, w') := send w in
  match retries_left with
  | S n => if should_retry r then request n w' else (outcome_of r, w')
  | O => (outcome_of r, w')
  end.

Definition default_client : Provider wire := {|
  on_init := λ key w, (Return (), w);
  on_create := λ self model input w, request DEFAULT_MAX_RETRIES w;
|}.

(** A server that is over its rate limit for the next three requests, and
    one that is so for the next request only. *)
Definition busy_server : state wire := {|
  outside := {| sent := 0;
                replies := [TooManyRequests "Rate limit reached";
                            TooManyRequests "Rate limit reached";
                            TooManyRequests "Rate limit reached"] |};
  globals := ∅;
|}.

Definition briefly_busy_server : state wire := {|
  outside := {| sent := 0;
                replies := [TooManyRequests "Rate limit reached";
                            Completed greeting] |};
  globals := ∅;
|}.

(** * Properties *)

(** ** The outcome of a run of the handler *)

#[local] Arguments answer : simpl never.

Section Handler.
Context `{Exceptions} {W : Type} (P : Provider W).
Implicit Types (req : APIkeyValidationRequest) (σ : state W) (e : exn).

Lemma run_render (p : py json) σ :
  run P (render p) σ =
    (respond (result (run P p σ)), final (run P p σ), trace (run P p σ)).
Proof.
  revert σ. induction p as [r|X c k IH|X c k IH]; intros σ; simpl; [done|..];
    destruct (answer P c σ) as [x σ1]; rewrite IH;
    by destruct (run P (k x) σ1) as [[r σ2] evs].
Qed.

(** The client could not be built: the exception leaves the handler as it
    is, before the [try] is entered. *)
Lemma run_client_not_built req σ σ1 e :
  answer P (OpenAI_init (openai_api_key req)) σ = (Raised e, σ1) →
  run P (validate_api_key req) σ =
    (Raised e, σ1,
     [Started (OpenAI_init (openai_api_key req));
      Returned (OpenAI_init (openai_api_key req))]).
Proof. intros Hinit. cbn. by rewrite Hinit. Qed.

(** The probe returned. *)
Lemma run_probe_returned req σ σ1 σ2 u completion :
  answer P (OpenAI_init (openai_api_key req)) σ = (Return u, σ1) →
  answer P (probe req) σ1 = (Return completion, σ2) →
  run P (validate_api_key req) σ =
    (Return (JObj {[ "valid" := JBool true ]}), σ2,
     [Started (OpenAI_init (openai_api_key req));
      Returned (OpenAI_init (openai_api_key req));
      Started (probe req); Returned (probe req)]).
Proof.
  intros Hinit Hprobe. unfold probe in Hprobe. cbn.
  rewrite Hinit. cbn. by rewrite Hprobe.
Qed.

(** The probe raised: the exception is offered to the [except] clauses. *)
Lemma run_probe_raised req σ σ1 σ2 u e :
  answer P (OpenAI_init (openai_api_key req)) σ = (Return u, σ1) →
  answer P (probe req) σ1 = (Raised e, σ2) →
  run P (validate_api_key req) σ =
    (result (run P (dispatch e validate_api_key_clauses) σ2),
     final (run P (dispatch e validate_api_key_clauses) σ2),
     [Started (OpenAI_init (openai_api_key req));
      Returned (OpenAI_init (openai_api_key req));
      Started (probe req); Returned (probe req)]
       ++ trace (run P (dispatch e validate_api_key_clauses) σ2)).
Proof.
  intros Hinit Hprobe. unfold probe in Hprobe. cbn.
  rewrite Hinit. cbn. rewrite Hprobe.
  by destruct (run P _ σ2) as [[r σ3] evs].
Qed.

(** The three ways the clauses can go, and the fourth: no clause. *)
Lemma dispatch_authentication e :
  isinstance e AuthenticationError = true →
  dispatch e validate_api_key_clauses =
    raise (HTTPException HTTP_401_UNAUTHORIZED "Invalid API key").
Proof. intros He. cbn. by rewrite He. Qed.

Lemma dispatch_openai e :
  isinstance e AuthenticationError = false →
  isinstance e OpenAIError = true →
  dispatch e validate_api_key_clauses =
    raise (HTTPException HTTP_502_BAD_GATEWAY ("OpenAI error: " +:+ str e)).
Proof. intros Ha Ho. cbn. by rewrite Ha, Ho. Qed.

Lemma isinstance_trans e c d :
  isinstance e c = true → issubclass c d = true → isinstance e d = true.
Proof. destruct e; simpl; apply issubclass_trans. Qed.

Lemma not_openai_not_authentication e :
  isinstance e OpenAIError = false → isinstance e AuthenticationError = false.
Proof.
  intros Ho. destruct (isinstance e AuthenticationError) eqn:Ha; [|done].
  rewrite (isinstance_trans e _ _ Ha AuthenticationError_base) in Ho. done.
Qed.

Lemma dispatch_exception e :
  isinstance e OpenAIError = false →
  isinstance e Exception = true →
  dispatch e validate_api_key_clauses =
    raise (HTTPException HTTP_500_INTERNAL_SERVER_ERROR "Internal server error").
Proof.
  intros Ho Hx. cbn. by rewrite (not_openai_not_authentication e Ho), Ho, Hx.
Qed.

Lemma dispatch_uncaught e :
  isinstance e Exception = false →
  dispatch e validate_api_key_clauses = raise e.
Proof.
  intros Hx.
  assert (isinstance e OpenAIError = false) as Ho.
  { destruct (isinstance e OpenAIError) eqn:Ho; [|done].
    by rewrite (isinstance_trans e _ _ Ho OpenAIError_base) in Hx. }
  cbn. by rewrite (not_openai_not_authentication e Ho), Ho, Hx.
Qed.

End Handler.

(** ** The four outcomes *)

Section Outcomes.
Context `{Exceptions} {W : Type} (P : Provider W).
Implicit Types (req : APIkeyValidationRequest) (σ : state W) (e : exn).

(** C1.  Whenever the probe call returns a completion, the handler returns
    [{"valid": True}], and the response is 200 with exactly the body
    [{"valid": true}].  The right-hand sides do not mention the completion:
    nothing of its content is in the response. *)
Theorem probe_returned_valid_true req σ σ1 σ2 u (completion : Response) :
  answer P (OpenAI_init (openai_api_key req)) σ = (Return u, σ1) →
  answer P (probe req) σ1 = (Return completion, σ2) →
  result (run P (validate_api_key req) σ) =
    Return (JObj {[ "valid" := JBool true ]}) ∧
  result (run P (render (validate_api_key req)) σ) =
    Return {| status := 200;
              body := JSONContent (JObj {[ "valid" := JBool true ]}) |}.
Proof.
  intros Hinit Hprobe. rewrite run_render.
  by rewrite (run_probe_returned P req σ σ1 σ2 u completion Hinit Hprobe).
Qed.

(** C2.  Whenever the probe call raises an [openai.AuthenticationError],
    the handler raises [HTTPException] with status 401 and detail
    ["Invalid API key"], and the response is 401 with that detail. *)
Theorem authentication_error_401 req σ σ1 σ2 u e :
  answer P (OpenAI_init (openai_api_key req)) σ = (Return u, σ1) →
  answer P (probe req) σ1 = (Raised e, σ2) →
  isinstance e AuthenticationError = true →
  result (run P (validate_api_key req) σ) =
    Raised (HTTPException 401 "Invalid API key") ∧
  result (run P (render (validate_api_key req)) σ) =
    Return {| status := 401;
              body := JSONContent (JObj {[ "detail" := JStr "Invalid API key" ]}) |}.
Proof.
  intros Hinit Hprobe He. rewrite run_render.
  rewrite (run_probe_raised P req σ σ1 σ2 u e Hinit Hprobe).
  by rewrite (dispatch_authentication e He).
Qed.

(** C3.  Whenever the probe call raises an [openai.OpenAIError] that is not
    an [openai.AuthenticationError], the handler raises [HTTPException]
    with status 502 and the detail ["OpenAI error: "] followed by [str] of
    the exception, and the response is 502 with that detail. *)
Theorem openai_error_502 req σ σ1 σ2 u e :
  answer P (OpenAI_init (openai_api_key req)) σ = (Return u, σ1) →
  answer P (probe req) σ1 = (Raised e, σ2) →
  isinstance e OpenAIError = true →
  isinstance e AuthenticationError = false →
  result (run P (validate_api_key req) σ) =
    Raised (HTTPException 502 ("OpenAI error: " +:+ str e)) ∧
  result (run P (render (validate_api_key req)) σ) =
    Return {| status := 502;
              body := JSONContent
                        (JObj {[ "detail" := JStr ("OpenAI error: " +:+ str e) ]}) |}.
Proof.
  intros Hinit Hprobe Ho Ha. rewrite run_render.
  rewrite (run_probe_raised P req σ σ1 σ2 u e Hinit Hprobe).
  by rewrite (dispatch_openai e Ha Ho).
Qed.

(** X6.  Whenever the probe call, the body of the [try], raises an
    exception that is an [Exception] and not an [openai.OpenAIError], the
    handler raises [HTTPException] with status 500 and detail
    ["Internal server error"], and the response is 500 with that detail.
    The right-hand sides do not mention the exception: nothing of it is in
    the response. *)
Theorem unexpected_probe_failure_500 req σ σ1 σ2 u e :
  answer P (OpenAI_init (openai_api_key req)) σ = (Return u, σ1) →
  answer P (probe req) σ1 = (Raised e, σ2) →
  isinstance e Exception = true →
  isinstance e OpenAIError = false →
  result (run P (validate_api_key req) σ) =
    Raised (HTTPException 500 "Internal server error") ∧
  result (run P (render (validate_api_key req)) σ) =
    Return {| status := 500;
              body := JSONContent
                        (JObj {[ "detail" := JStr "Internal server error" ]}) |}.
Proof.
  intros Hinit Hprobe Hx Ho. rewrite run_render.
  rewrite (run_probe_raised P req σ σ1 σ2 u e Hinit Hprobe).
  by rewrite (dispatch_exception e Ho Hx).
Qed.

(** C5.  The clause for [openai.AuthenticationError] stands before the one
    for [openai.OpenAIError]: an authentication failure of the probe call,
    which is an [OpenAIError] as well, is answered by the first clause, so
    with 401 and never with 502. *)
Theorem authentication_before_openai req σ σ1 σ2 u e :
  answer P (OpenAI_init (openai_api_key req)) σ = (Return u, σ1) →
  answer P (probe req) σ1 = (Raised e, σ2) →
  isinstance e AuthenticationError = true →
  isinstance e OpenAIError = true ∧
  fst <$> validate_api_key_clauses = [AuthenticationError; OpenAIError; Exception] ∧
  result (run P (validate_api_key req) σ) =
    Raised (HTTPException HTTP_401_UNAUTHORIZED "Invalid API key") ∧
  (∀ detail,
     result (run P (validate_api_key req) σ) ≠
       Raised (HTTPException HTTP_502_BAD_GATEWAY detail)) ∧
  ∃ content,
    result (run P (render (validate_api_key req)) σ) =
      Return {| status := 401; body := content |}.
Proof.
  intros Hinit Hprobe He.
  split; [exact (isinstance_trans e _ _ He AuthenticationError_base)|].
  split; [done|].
  rewrite run_render, (run_probe_raised P req σ σ1 σ2 u e Hinit Hprobe).
  rewrite (dispatch_authentication e He). cbn.
  split; [done|]. split; [by intros detail [=]|]. by eexists.
Qed.

End Outcomes.

(** The theorems at concrete requests against [sample_provider]. *)

Lemma probe_returned_valid_true_witness :
  answer sample_provider (probe good_request) fresh = (Return greeting, fresh) ∧
  result (run sample_provider (validate_api_key good_request) fresh) =
    Return (JObj {[ "valid" := JBool true ]}) ∧
  result (run sample_provider (render (validate_api_key good_request)) fresh) =
    Return {| status := 200;
              body := JSONContent (JObj {[ "valid" := JBool true ]}) |}.
Proof.
  split; [reflexivity|].
  apply (probe_returned_valid_true sample_provider good_request fresh fresh fresh ()
           greeting); reflexivity.
Defined.

Lemma authentication_error_401_witness :
  answer sample_provider (probe revoked_request) fresh = (Raised key_refused, fresh) ∧
  result (run sample_provider (validate_api_key revoked_request) fresh) =
    Raised (HTTPException 401 "Invalid API key") ∧
  result (run sample_provider (render (validate_api_key revoked_request)) fresh) =
    Return {| status := 401;
              body := JSONContent (JObj {[ "detail" := JStr "Invalid API key" ]}) |}.
Proof.
  split; [reflexivity|].
  apply (authentication_error_401 sample_provider revoked_request fresh fresh fresh () key_refused);
    reflexivity.
Defined.

Lemma openai_error_502_witness :
  answer sample_provider (probe quota_request) fresh = (Raised quota_exceeded, fresh) ∧
  result (run sample_provider (validate_api_key quota_request) fresh) =
    Raised (HTTPException 502 "OpenAI error: You exceeded your current quota") ∧
  result (run sample_provider (render (validate_api_key quota_request)) fresh) =
    Return {| status := 502;
              body := JSONContent
                        (JObj {[ "detail" :=
                                 JStr "OpenAI error: You exceeded your current quota" ]}) |}.
Proof.
  split; [reflexivity|].
  apply (openai_error_502 sample_provider quota_request fresh fresh fresh () quota_exceeded);
    reflexivity.
Defined.

Lemma unexpected_probe_failure_500_witness :
  answer sample_provider (probe odd_request) fresh = (Raised odd_payload, fresh) ∧
  result (run sample_provider (validate_api_key odd_request) fresh) =
    Raised (HTTPException 500 "Internal server error") ∧
  result (run sample_provider (render (validate_api_key odd_request)) fresh) =
    Return {| status := 500;
              body := JSONContent
                        (JObj {[ "detail" := JStr "Internal server error" ]}) |}.
Proof.
  split; [reflexivity|].
  apply (unexpected_probe_failure_500 sample_provider odd_request fresh fresh fresh () odd_payload);
    reflexivity.
Defined.

Lemma authentication_before_openai_witness :
  answer sample_provider (probe revoked_request) fresh = (Raised key_refused, fresh) ∧
  isinstance key_refused OpenAIError = true ∧
  result (run sample_provider (validate_api_key revoked_request) fresh) =
    Raised (HTTPException 401 "Invalid API key").
Proof.
  split; [reflexivity|].
  destruct (authentication_before_openai sample_provider revoked_request fresh fresh fresh () key_refused)
    as (Ho & _ & Hr & _); [reflexivity..|].
  exact (conj Ho Hr).
Defined.

(** C4, on the code.  The claim has every unexpected failure inside the
    handler, one in the construction of the client included, answered with
    500 and the detail ["Internal server error"].  [main.py] builds the
    client on the line before its [try]: at a request for which the
    constructor raises, its exception, an [Exception], leaves the handler as
    it is, text and all; the handler raises no [HTTPException] with status
    500, and no response with a detail is made of it.  The same exception
    raised by the probe is answered as the claim says. *)
Lemma client_fault_not_caught :
  answer no_client_provider (OpenAI_init (openai_api_key good_request)) fresh =
    (Raised bad_proxy, fresh) ∧
  isinstance bad_proxy Exception = true ∧
  result (run no_client_provider (validate_api_key good_request) fresh) = Raised bad_proxy ∧
  result (run no_client_provider (validate_api_key good_request) fresh) ≠
    Raised (HTTPException 500 "Internal server error") ∧
  result (run no_client_provider (render (validate_api_key good_request)) fresh) = Raised bad_proxy.
Proof. by repeat split. Qed.

(** ** Request validation *)

Section Requests.
Context `{Exceptions}.

(** C6.  A POST whose JSON body has no [openai_api_key] field is answered
    with 422 by request validation; the endpoint's program is then that
    response and nothing else, so that run against any provider it makes no
    call at all: the handler's body, which begins with a call, is not
    executed and the provider is not reached. *)
Theorem missing_key_422 (fields : gmap string json) :
  fields !! "openai_api_key" = None →
  post_api_validate_api_key (JObj fields) =
    Done (Return {| status := 422;
                    body := ValidationErrors [Missing "openai_api_key"] |}) ∧
  ∀ (W : Type) (P : Provider W) (σ : state W),
    trace (run P (post_api_validate_api_key (JObj fields)) σ) = [] ∧
    final (run P (post_api_validate_api_key (JObj fields)) σ) = σ.
Proof.
  intros Hnone.
  assert (post_api_validate_api_key (JObj fields) =
            Done (Return {| status := 422;
                            body := ValidationErrors [Missing "openai_api_key"] |}))
    as ->; [|done].
  unfold post_api_validate_api_key, model_validate. by rewrite Hnone.
Qed.

(** C10.  A POST whose JSON body has a string [openai_api_key] and any
    other fields besides passes request validation; the model keeps the key
    alone, and the endpoint does what it does for the body with that one
    field: the handler on that key. *)
Theorem unknown_fields_ignored (fields : gmap string json) (key : string) :
  fields !! "openai_api_key" = Some (JStr key) →
  model_validate (JObj fields) = inr {| openai_api_key := key |} ∧
  post_api_validate_api_key (JObj fields) =
    render (validate_api_key {| openai_api_key := key |}) ∧
  post_api_validate_api_key (JObj fields) =
    post_api_validate_api_key (JObj {[ "openai_api_key" := JStr key ]}).
Proof.
  intros Hkey.
  assert (model_validate (JObj fields) = inr {| openai_api_key := key |}) as Hm.
  { unfold model_validate. by rewrite Hkey. }
  assert (model_validate (JObj {[ "openai_api_key" := JStr key ]}) =
            inr {| openai_api_key := key |}) as Hs.
  { unfold model_validate. by rewrite lookup_singleton_eq. }
  unfold post_api_validate_api_key. by rewrite Hm, Hs.
Qed.

End Requests.

Lemma missing_key_422_witness :
  post_api_validate_api_key (H := openai_python) (JObj {[ "api_key" := JStr "sk-good" ]}) =
    Done (Return {| status := 422;
                    body := ValidationErrors [Missing "openai_api_key"] |}).
Proof.
  apply (missing_key_422 (H := openai_python) {[ "api_key" := JStr "sk-good" ]}).
  reflexivity.
Defined.

Lemma unknown_fields_ignored_witness :
  post_api_validate_api_key (H := openai_python)
    (JObj {[ "openai_api_key" := JStr "sk-good"; "organization" := JStr "acme";
             "retries" := JNum 3 ]}) =
  render (validate_api_key good_request).
Proof.
  apply (unknown_fields_ignored (H := openai_python)
           {[ "openai_api_key" := JStr "sk-good"; "organization" := JStr "acme";
              "retries" := JNum 3 ]} "sk-good").
  reflexivity.
Defined.

(** ** Effects *)

Section Effects.
Context `{Exceptions} {W : Type} (P : Provider W).
Implicit Types (req : APIkeyValidationRequest) (σ : state W) (e : exn).

Lemma dispatch_done e :
  ∃ r : pyres json, dispatch e validate_api_key_clauses = Done r.
Proof.
  cbn. destruct (isinstance e AuthenticationError); [by eexists|].
  destruct (isinstance e OpenAIError); [by eexists|].
  destruct (isinstance e Exception); by eexists.
Qed.

Lemma answer_init_globals key σ :
  globals (answer P (OpenAI_init key) σ).2 = globals σ.
Proof. unfold answer. by destruct (on_init P key (outside σ)). Qed.

Lemma answer_create_globals self model input σ :
  globals (answer P (Responses_create self model input) σ).2 = globals σ.
Proof. unfold answer. by destruct (on_create P self model input (outside σ)). Qed.

(** C7, as amended.  A run of the handler makes one call of
    [responses.create] when the client was built, and none when it was not;
    so never more than one, whatever the call's outcome: the handler tries
    no failure again.  The module's global objects are after the run what
    they were before it.  How many requests the client sends within that
    one call is not the handler's. *)
Theorem one_outbound_call req σ :
  outbound_calls (trace (run P (validate_api_key req) σ)) =
    match (answer P (OpenAI_init (openai_api_key req)) σ).1 with
    | Return _ => 1%nat
    | Raised _ => 0%nat
    end ∧
  globals (final (run P (validate_api_key req) σ)) = globals σ.
Proof.
  pose proof (answer_init_globals (openai_api_key req) σ) as G1.
  destruct (answer P (OpenAI_init (openai_api_key req)) σ) as [[u|e] σ1] eqn:Hinit.
  - pose proof (answer_create_globals
                  {| api_key := openai_api_key req |} "gpt-4o-mini" "hello" σ1) as G2.
    fold (probe req) in G2.
    destruct (answer P (probe req) σ1) as [[completion|e] σ2] eqn:Hprobe.
    + rewrite (run_probe_returned P req σ σ1 σ2 u completion Hinit Hprobe).
      cbn in *. split; [done|]. by rewrite G2, G1.
    + rewrite (run_probe_raised P req σ σ1 σ2 u e Hinit Hprobe).
      destruct (dispatch_done e) as [r ->].
      cbn in *. split; [done|]. by rewrite G2, G1.
  - rewrite (run_client_not_built P req σ σ1 e Hinit).
    cbn in *. split; [done|]. by rewrite G1.
Qed.

End Effects.

(** C7, as the claim has it, fails at the network: with the client that
    line 23 builds and a server over its rate limit, one invocation, with
    its one call of [responses.create], sends three requests to the
    provider; the failure is reported with 502 only after two retries. *)
Lemma one_probe_three_requests :
  sent (outside busy_server) = 0%nat ∧
  outbound_calls
    (trace (run default_client (validate_api_key quota_request) busy_server)) = 1%nat ∧
  sent (outside (final (run default_client (validate_api_key quota_request)
                          busy_server))) = 3%nat ∧
  result (run default_client (validate_api_key quota_request) busy_server) =
    Raised (HTTPException 502 "OpenAI error: Rate limit reached").
Proof. by repeat split. Qed.

(** A failure that passes is not reported at all: the second request is
    answered and the handler returns as if nothing had failed. *)
Lemma passing_failure_not_reported :
  sent (outside (final (run default_client (validate_api_key good_request)
                          briefly_busy_server))) = 2%nat ∧
  result (run default_client (validate_api_key good_request) briefly_busy_server) =
    Return (JObj {[ "valid" := JBool true ]}).
Proof. by repeat split. Qed.

(** ** Determinism *)

Section Determinism.
Context `{Exceptions} {W1 W2 : Type} (P1 : Provider W1) (P2 : Provider W2).
Implicit Types (req : APIkeyValidationRequest).

(** C8.  The outcome is a function of the credential and of what the
    provider answers: two invocations with the same credential, in which the
    construction of the client and, after it, the probe are answered alike,
    end alike, with the same value or the same status code and detail, and
    so with the same response. *)
Theorem same_answers_same_outcome req (σ1 : state W1) (σ2 : state W2) :
  (answer P1 (OpenAI_init (openai_api_key req)) σ1).1 =
    (answer P2 (OpenAI_init (openai_api_key req)) σ2).1 →
  (answer P1 (probe req) (answer P1 (OpenAI_init (openai_api_key req)) σ1).2).1 =
    (answer P2 (probe req) (answer P2 (OpenAI_init (openai_api_key req)) σ2).2).1 →
  result (run P1 (validate_api_key req) σ1) =
    result (run P2 (validate_api_key req) σ2) ∧
  result (run P1 (render (validate_api_key req)) σ1) =
    result (run P2 (render (validate_api_key req)) σ2).
Proof.
  intros Hinit Hprobe.
  assert (result (run P1 (validate_api_key req) σ1) =
            result (run P2 (validate_api_key req) σ2)) as Heq.
  { destruct (answer P1 (OpenAI_init (openai_api_key req)) σ1)
      as [r1 τ1] eqn:Hinit1.
    destruct (answer P2 (OpenAI_init (openai_api_key req)) σ2)
      as [r2 τ2] eqn:Hinit2.
    simpl in Hinit, Hprobe. subst r2. destruct r1 as [u|e].
    - destruct (answer P1 (probe req) τ1) as [a1 υ1] eqn:Hprobe1.
      destruct (answer P2 (probe req) τ2) as [a2 υ2] eqn:Hprobe2.
      simpl in Hprobe. subst a2. destruct a1 as [completion|e].
      + rewrite (run_probe_returned P1 req σ1 τ1 υ1 u completion Hinit1 Hprobe1).
        by rewrite (run_probe_returned P2 req σ2 τ2 υ2 u completion Hinit2 Hprobe2).
      + rewrite (run_probe_raised P1 req σ1 τ1 υ1 u e Hinit1 Hprobe1).
        rewrite (run_probe_raised P2 req σ2 τ2 υ2 u e Hinit2 Hprobe2).
        by destruct (dispatch_done e) as [r ->].
    - rewrite (run_client_not_built P1 req σ1 τ1 e Hinit1).
      by rewrite (run_client_not_built P2 req σ2 τ2 e Hinit2). }
  split; [done|]. rewrite !run_render. unfold result in *. cbn [fst]. by rewrite Heq.
Qed.

End Determinism.

(** The same key twice in a row against [sample_provider], the second run
    from the state the first one left. *)
Lemma same_answers_same_outcome_witness :
  result (run sample_provider (validate_api_key quota_request) fresh) =
    result (run sample_provider (validate_api_key quota_request)
              (final (run sample_provider (validate_api_key quota_request) fresh))) ∧
  result (run sample_provider (validate_api_key quota_request) fresh) =
    Raised (HTTPException 502 "OpenAI error: You exceeded your current quota").
Proof.
  split; [|reflexivity].
  apply (same_answers_same_outcome sample_provider sample_provider quota_request
           fresh (final (run sample_provider (validate_api_key quota_request) fresh)));
    reflexivity.
Defined.

(** ** The event loop *)

Section Loop.
Context `{Exceptions} {W : Type} (P : Provider W).
Implicit Types (req : APIkeyValidationRequest) (σ : state W).

Lemma advance_await_free {A} (p : py A) σ :
  await_free p →
  never_suspends (result (advance P p σ)) ∧ returned_calls (trace (advance P p σ)).
Proof.
  revert σ. induction p as [r|X c k IH|X c k IH]; intros σ Hp; simpl in *.
  - split; [done|constructor].
  - destruct (answer P c σ) as [x σ1].
    destruct (IH x σ1 (Hp x)) as [Ht Hevs].
    destruct (advance P (k x) σ1) as [[t σ2] evs]. split; [done|].
    by constructor.
  - done.
Qed.

Lemma resume_never_suspends {A} (t : task A) σ :
  never_suspends t →
  never_suspends (result (resume P t σ)) ∧ returned_calls (trace (resume P t σ)).
Proof.
  destruct t as [p|X c k|r]; simpl; intros Ht.
  - by apply advance_await_free.
  - done.
  - split; [done|constructor].
Qed.

Lemma others_flying_nil i : others_flying i [] = false.
Proof. apply bool_decide_eq_false. by inversion 1. Qed.

Lemma others_flying_self i : others_flying i [i] = false.
Proof.
  apply bool_decide_eq_false. intros Hex.
  apply Exists_cons in Hex as [Hne|Hex]; [done|by inversion Hex].
Qed.

Lemma overlap_returned_calls i evs tr :
  returned_calls evs →
  overlap [] (((λ ev, (i, ev)) <$> evs) ++ tr) = overlap [] tr.
Proof.
  induction 1 as [|X c evs _ IH]; [done|].
  cbn [fmap list_fmap app overlap update_flying].
  rewrite others_flying_nil. destruct (is_outbound c); cbn [orb].
  - rewrite others_flying_self. cbn [orb remove].
    destruct (Nat.eq_dec i i) as [_|Hne]; [exact IH|done].
  - rewrite others_flying_nil. exact IH.
Qed.

Lemma event_loop_never_overlaps {A} schedule (tasks : list (task A)) σ :
  Forall never_suspends tasks →
  overlap [] (trace (event_loop P schedule tasks σ)) = false.
Proof.
  revert tasks σ. induction schedule as [|i schedule IH]; intros tasks σ Hts; [done|].
  simpl. destruct (tasks !! i) as [t|] eqn:Hi; [|by apply IH].
  pose proof (resume_never_suspends t σ (Forall_lookup_1 _ _ _ _ Hts Hi)) as [Ht Hevs].
  destruct (resume P t σ) as [[t' σ1] evs].
  specialize (IH (<[i := t']> tasks) σ1 (Forall_insert _ _ _ _ Hts Ht)).
  destruct (event_loop P schedule (<[i := t']> tasks) σ1) as [[tasks' σ2] tr].
  unfold trace in *. simpl in *. by rewrite overlap_returned_calls.
Qed.

Lemma validate_api_key_await_free req : await_free (validate_api_key req).
Proof.
  intros [u|e]; [|done]. intros [completion|e]; [done|].
  cbn. destruct (isinstance e AuthenticationError); [done|].
  destruct (isinstance e OpenAIError); [done|].
  by destruct (isinstance e Exception).
Qed.

Lemma render_await_free (p : py json) : await_free p → await_free (render p).
Proof. induction p as [r|X c k IH|X c k IH]; simpl; [done| |done]. intros Hk x. by apply IH. Qed.

Lemma post_api_validate_api_key_await_free (request_body : json) :
  await_free (post_api_validate_api_key request_body).
Proof.
  unfold post_api_validate_api_key.
  destruct (model_validate request_body) as [error|req]; [done|].
  apply render_await_free, validate_api_key_await_free.
Qed.

(** C9, on the code.  [validate_api_key] is a coroutine function whose body
    has no [await], and its probe is a plain call of the synchronous
    client.  Whatever the requests, the provider and the order in which the
    loop takes the tasks up, no task does anything between the start and
    the return of another task's probe: the loop's one thread is in that
    call.  This holds of the handler on validated requests and of the
    endpoint on request bodies. *)
Theorem probe_holds_the_loop
    (reqs : list APIkeyValidationRequest) (bodies : list json) schedule σ :
  overlap []
    (trace (event_loop P schedule
              ((λ req, Runnable (validate_api_key req)) <$> reqs) σ)) = false ∧
  overlap []
    (trace (event_loop P schedule
              ((λ request_body, Runnable (post_api_validate_api_key request_body))
                 <$> bodies) σ)) = false.
Proof.
  split; apply event_loop_never_overlaps, Forall_fmap, Forall_forall.
  - intros req _. apply validate_api_key_await_free.
  - intros request_body _. apply post_api_validate_api_key_await_free.
Qed.

End Loop.

(** With the probe awaited, as the spec words it, a second request is taken
    up while the first one's probe is in flight: the notion is not void. *)
Lemma spec_validate_api_key_overlaps :
  overlap []
    (trace (event_loop sample_provider [0; 1; 0; 1]%nat
              [Runnable (spec_validate_api_key good_request);
               Runnable (spec_validate_api_key revoked_request)] fresh)) = true.
Proof. reflexivity. Qed.

(** The same two requests and the same schedule with the handler of
    [main.py]: the second request starts when the first has its answer. *)
Lemma validate_api_key_two_requests :
  trace (event_loop sample_provider [0; 1; 0; 1]%nat
           [Runnable (validate_api_key good_request);
            Runnable (validate_api_key revoked_request)] fresh) =
    [(0, Started (OpenAI_init "sk-good")); (0, Returned (OpenAI_init "sk-good"));
     (0, Started (probe good_request)); (0, Returned (probe good_request));
     (1, Started (OpenAI_init "sk-revoked")); (1, Returned (OpenAI_init "sk-revoked"));
     (1, Started (probe revoked_request)); (1, Returned (probe revoked_request))]%nat.
Proof. reflexivity. Qed.

(** * Further properties of the handler *)

Section Further.
Context `{Exceptions} {W : Type} (P : Provider W).
Implicit Types (req : APIkeyValidationRequest) (σ : state W) (e : exn).

(** X1.  An exception raised while the client is built, of whatever class,
    an [openai.OpenAIError] or [openai.AuthenticationError] included, is
    not classified: it leaves the handler as the same object, the probe is
    not made, and the state is the one the constructor left. *)
Theorem client_fault_propagates req σ σ1 e :
  answer P (OpenAI_init (openai_api_key req)) σ = (Raised e, σ1) →
  result (run P (validate_api_key req) σ) = Raised e ∧
  final (run P (validate_api_key req) σ) = σ1 ∧
  outbound_calls (trace (run P (validate_api_key req) σ)) = 0%nat ∧
  (∀ code detail,
     e ≠ HTTPException code detail →
     result (run P (validate_api_key req) σ) ≠ Raised (HTTPException code detail)).
Proof.
  intros Hinit. rewrite (run_client_not_built P req σ σ1 e Hinit).
  repeat split. intros code detail Hne [= He]. by apply Hne.
Qed.

(** X2.  An exception of the probe that is no [Exception], such as a
    [KeyboardInterrupt], meets none of the three clauses: it leaves the
    handler as it is, and no response is made of it. *)
Theorem base_exception_passes req σ σ1 σ2 u e :
  answer P (OpenAI_init (openai_api_key req)) σ = (Return u, σ1) →
  answer P (probe req) σ1 = (Raised e, σ2) →
  isinstance e Exception = false →
  result (run P (validate_api_key req) σ) = Raised e ∧
  result (run P (render (validate_api_key req)) σ) = Raised e.
Proof.
  intros Hinit Hprobe Hx. rewrite run_render.
  rewrite (run_probe_raised P req σ σ1 σ2 u e Hinit Hprobe).
  rewrite (dispatch_uncaught e Hx). unfold result. cbn.
  split; [done|]. destruct e as [code detail|c msg]; [|done].
  simpl in Hx. by rewrite issubclass_refl in Hx.
Qed.

(** X3.  The calls of a run, in full: the client is built from the key of
    the request as it came, and, when it was built, the probe follows with
    that key, the model ["gpt-4o-mini"] and the input ["hello"].  There is
    no other call, before, between or after, whatever the probe's outcome. *)
Theorem calls_of_a_run req σ :
  trace (run P (validate_api_key req) σ) =
    [Started (OpenAI_init (openai_api_key req));
     Returned (OpenAI_init (openai_api_key req))] ++
    match (answer P (OpenAI_init (openai_api_key req)) σ).1 with
    | Return _ =>
        [Started (Responses_create {| api_key := openai_api_key req |}
                    "gpt-4o-mini" "hello");
         Returned (Responses_create {| api_key := openai_api_key req |}
                     "gpt-4o-mini" "hello")]
    | Raised _ => []
    end.
Proof.
  destruct (answer P (OpenAI_init (openai_api_key req)) σ) as [[u|e] σ1] eqn:Hinit.
  - destruct (answer P (probe req) σ1) as [[completion|e] σ2] eqn:Hprobe.
    + by rewrite (run_probe_returned P req σ σ1 σ2 u completion Hinit Hprobe).
    + rewrite (run_probe_raised P req σ σ1 σ2 u e Hinit Hprobe).
      by destruct (dispatch_done e) as [r ->].
  - by rewrite (run_client_not_built P req σ σ1 e Hinit).
Qed.

(** X4.  With the client built, the handler ends in one of five ways and
    no other: it returns [{"valid": True}]; it raises [HTTPException] with
    401 and ["Invalid API key"], with 502 and ["OpenAI error: "] before the
    text of the probe's exception, or with 500 and
    ["Internal server error"]; or the probe's exception, being no
    [Exception], goes through.  So no [Exception] of the probe leaves the
    handler as it came. *)
Theorem built_client_outcomes req σ σ1 u :
  answer P (OpenAI_init (openai_api_key req)) σ = (Return u, σ1) →
  result (run P (validate_api_key req) σ) =
    Return (JObj {[ "valid" := JBool true ]}) ∨
  result (run P (validate_api_key req) σ) =
    Raised (HTTPException 401 "Invalid API key") ∨
  (∃ e, (answer P (probe req) σ1).1 = Raised e ∧
        result (run P (validate_api_key req) σ) =
          Raised (HTTPException 502 ("OpenAI error: " +:+ str e))) ∨
  result (run P (validate_api_key req) σ) =
    Raised (HTTPException 500 "Internal server error") ∨
  (∃ e, (answer P (probe req) σ1).1 = Raised e ∧
        isinstance e Exception = false ∧
        result (run P (validate_api_key req) σ) = Raised e).
Proof.
  intros Hinit.
  destruct (answer P (probe req) σ1) as [[completion|e] σ2] eqn:Hprobe.
  - left. by rewrite (run_probe_returned P req σ σ1 σ2 u completion Hinit Hprobe).
  - right. rewrite (run_probe_raised P req σ σ1 σ2 u e Hinit Hprobe).
    destruct (isinstance e AuthenticationError) eqn:Ha.
    { left. by rewrite (dispatch_authentication e Ha). }
    right. destruct (isinstance e OpenAIError) eqn:Ho.
    { left. exists e. by rewrite (dispatch_openai e Ha Ho). }
    right. destruct (isinstance e Exception) eqn:Hx.
    { left. by rewrite (dispatch_exception e Ho Hx). }
    right. exists e. by rewrite (dispatch_uncaught e Hx).
Qed.

(** A program without [await] is run by the loop in one turn, which does
    what a run of the program on its own does. *)
Lemma advance_run {A} (p : py A) σ :
  await_free p →
  advance P p σ =
    (Finished (result (run P p σ)), final (run P p σ), trace (run P p σ)).
Proof.
  revert σ. induction p as [r|X c k IH|X c k IH]; intros σ Hp; simpl in *;
    [done| |done].
  destruct (answer P c σ) as [x σ1]. rewrite (IH x σ1 (Hp x)).
  by destruct (run P (k x) σ1) as [[r σ2] evs].
Qed.

(** X5.  On the event loop a request is served in one turn: the first time
    its task is resumed the handler runs to its end, and its outcome, the
    state it leaves and the calls it makes are those of a run of the handler
    on its own from the state the turn began in.  What other tasks of the
    loop are or do in the meantime has no part in it. *)
Theorem served_in_one_turn req σ :
  resume P (Runnable (validate_api_key req)) σ =
    (Finished (result (run P (validate_api_key req) σ)),
     final (run P (validate_api_key req) σ),
     trace (run P (validate_api_key req) σ)).
Proof. apply advance_run, validate_api_key_await_free. Qed.

End Further.

Lemma client_fault_propagates_witness :
  answer no_client_provider (OpenAI_init (openai_api_key revoked_request)) fresh =
    (Raised bad_proxy, fresh) ∧
  result (run no_client_provider (validate_api_key revoked_request) fresh) =
    Raised bad_proxy.
Proof.
  split; [reflexivity|].
  apply (client_fault_propagates no_client_provider revoked_request fresh fresh bad_proxy).
  reflexivity.
Defined.

Lemma base_exception_passes_witness :
  answer interrupted_provider (probe good_request) fresh = (Raised interrupt, fresh) ∧
  isinstance interrupt Exception = false ∧
  result (run interrupted_provider (validate_api_key good_request) fresh) =
    Raised interrupt.
Proof.
  split; [reflexivity|]. split; [reflexivity|].
  apply (base_exception_passes interrupted_provider good_request fresh fresh fresh ()
           interrupt); reflexivity.
Defined.

Lemma built_client_outcomes_witness :
  answer sample_provider (OpenAI_init (openai_api_key quota_request)) fresh =
    (Return (), fresh) ∧
  (result (run sample_provider (validate_api_key quota_request) fresh) =
     Return (JObj {[ "valid" := JBool true ]}) ∨
   result (run sample_provider (validate_api_key quota_request) fresh) =
     Raised (HTTPException 401 "Invalid API key") ∨
   (∃ e, (answer sample_provider (probe quota_request) fresh).1 = Raised e ∧
         result (run sample_provider (validate_api_key quota_request) fresh) =
           Raised (HTTPException 502 ("OpenAI error: " +:+ str e))) ∨
   result (run sample_provider (validate_api_key quota_request) fresh) =
     Raised (HTTPException 500 "Internal server error") ∨
   (∃ e, (answer sample_provider (probe quota_request) fresh).1 = Raised e ∧
         isinstance e Exception = false ∧
         result (run sample_provider (validate_api_key quota_request) fresh) =
           Raised e)).
Proof.
  split; [reflexivity|].
  apply (built_client_outcomes sample_provider quota_request fresh fresh ()).
  reflexivity.
Defined.
